(** * geoint: the upload controller of [static/app.js]

    A shallow embedding of the browser script that submits an image to
    the analysis endpoint and shows the answer.  The script is a single
    [submit] listener, two helpers ([setStatus], [showResult]) and four
    DOM references.  The listener is an [async] function with two
    [await]s, so one submission runs in three segments separated by the
    settlement of [fetch] and of [response.json()]; other events may be
    handled in between.

    Layout: JavaScript values and the built-ins the script calls; the
    browser state and a small state-and-exception monad; the helpers and
    the three segments of the listener; the event loop; theorems. *)

From Stdlib Require Import Ascii String NArith.
From stdpp Require Import base option list gmap strings.

(** ** JavaScript values *)

(** Strings are kept as byte strings: the (generalised) UTF-8 encoding
    of the JavaScript string, in which a lone surrogate takes the three
    bytes [ED A0..BF 80..BF]. *)

(** The Number type is left abstract: the script only tests a number for
    truthiness, converts it to a string and serialises it. *)
Class JSNumber (number : Type) := {
  (** [+0], [-0] and [NaN]: the numbers [ToBoolean] sends to [false]. *)
  number_is_falsy : number -> bool;
  (** neither [NaN] nor an infinity *)
  number_is_finite : number -> bool;
  (** [Number::toString] in radix 10 *)
  number_to_string : number -> string;
}.

(** A value as [JSON.parse] builds it.  The properties of an object are
    listed in the order [Object.keys] enumerates them. *)
#[warnings="-register-all"]
Inductive json {number : Type} : Type :=
| JNull
| JBool (b : bool)
| JNumber (n : number)
| JString (s : string)
| JArray (elements : list json)
| JObject (properties : list (string * json)).
Arguments json : clear implicits.

(** Values thrown, or given as the reason of a rejected promise. *)
Inductive js_error : Type :=
| HostError (name message : string)
| TypeError_property_of_null (property : string)
| TypeError_no_primitive_value.

(** How a promise is settled. *)
Inductive Settled (A : Type) : Type :=
| Fulfilled (value : A)
| Rejected (reason : js_error).
Arguments Fulfilled {A} value.
Arguments Rejected {A} reason.

(** How the evaluation of an expression or statement ends. *)
Inductive Completion (A : Type) : Type :=
| Normal (value : A)
| Throw (error : js_error).
Arguments Normal {A} value.
Arguments Throw {A} error.

Module Str.

Definition dquote : ascii := ascii_of_N 34.
Definition backslash : ascii := ascii_of_N 92.

Fixpoint join (sep : string) (parts : list string) : string :=
  match parts with
  | [] => EmptyString
  | [p] => p
  | p :: rest => p +:+ sep +:+ join sep rest
  end.

Definition hex_digit (n : N) : ascii :=
  match n with
  | 0 => "0" | 1 => "1" | 2 => "2" | 3 => "3" | 4 => "4" | 5 => "5"
  | 6 => "6" | 7 => "7" | 8 => "8" | 9 => "9" | 10 => "a" | 11 => "b"
  | 12 => "c" | 13 => "d" | 14 => "e" | _ => "f"
  end%N%char.

(** [\uXXXX] with four lower-case hexadecimal digits *)
Definition unicode_escape (code_unit : N) : string :=
  String backslash (String "u"
    (String (hex_digit (N.land (N.shiftr code_unit 12) 15))
    (String (hex_digit (N.land (N.shiftr code_unit 8) 15))
    (String (hex_digit (N.land (N.shiftr code_unit 4) 15))
    (String (hex_digit (N.land code_unit 15)) EmptyString))))).

End Str.

Section Builtins.
Context {number : Type} `{JSNumber number}.

(** A JavaScript value of the script: a parsed value or [undefined]. *)
Definition js_value : Type := option (json number).

Definition ToBoolean (v : js_value) : bool :=
  match v with
  | None => false
  | Some JNull => false
  | Some (JBool b) => b
  | Some (JNumber n) => negb (number_is_falsy n)
  | Some (JString s) => negb (bool_decide (s = EmptyString))
  | Some (JArray _) => true
  | Some (JObject _) => true
  end.

(** The own property of an object with the given key. *)
Fixpoint own_property (name : string) (properties : list (string * json number))
  : js_value :=
  match properties with
  | [] => None
  | (k, v) :: rest => if bool_decide (k = name) then Some v else own_property name rest
  end.

(** The values of a list of completions, or the first error. *)
Fixpoint all_normal {A : Type} (completions : list (Completion A))
  : Completion (list A) :=
  match completions with
  | [] => Normal []
  | Throw e :: _ => Throw e
  | Normal a :: rest =>
      match all_normal rest with
      | Normal values => Normal (a :: values)
      | Throw e => Throw e
      end
  end.

(** [ToString].  An array is joined with commas, [null] elements giving
    the empty string ([Array.prototype.join]), and the conversion of an
    element may throw.  An object is converted by
    [OrdinaryToPrimitive]: a parsed object has no callable property of
    its own, so an own [toString] key hides [Object.prototype.toString];
    [valueOf], own or inherited, yields no primitive either, and the
    conversion throws a [TypeError].  Without that key the result is
    [[object Object]]. *)
Fixpoint ToString (v : json number) : Completion string :=
  match v with
  | JNull => Normal "null"
  | JBool true => Normal "true"
  | JBool false => Normal "false"
  | JNumber n => Normal (number_to_string n)
  | JString s => Normal s
  | JArray elements =>
      match
        all_normal
          (map (fun e => match e with JNull => Normal EmptyString | _ => ToString e end)
               elements)
      with
      | Normal parts => Normal (Str.join "," parts)
      | Throw e => Throw e
      end
  | JObject properties =>
      match own_property "toString" properties with
      | Some _ => Throw TypeError_no_primitive_value
      | None => Normal "[object Object]"
      end
  end.

(** Assignment to an attribute of type [DOMString?], such as
    [textContent]: [null] stands for the empty string, anything else is
    converted by [ToString] before the attribute is touched. *)
Definition DOMString_of (v : json number) : Completion string :=
  match v with
  | JNull => Normal EmptyString
  | _ => ToString v
  end.

(** [payload.error]: the own property of an object; [undefined] on a
    primitive or an array, whose prototypes have no such property; a
    [TypeError] on [null]. *)
Definition Get (v : json number) (name : string) : Completion js_value :=
  match v with
  | JNull => Throw (TypeError_property_of_null name)
  | JObject properties => Normal (own_property name properties)
  | _ => Normal None
  end.

(** *** [JSON.stringify(value, null, 2)] *)

Fixpoint quote_chars (s : string) : string :=
  match s with
  | EmptyString => EmptyString
  | String c rest =>
      let n := N_of_ascii c in
      let plain := String c (quote_chars rest) in
      if (n =? 34)%N then String Str.backslash (String Str.dquote (quote_chars rest))
      else if (n =? 92)%N then String Str.backslash (String Str.backslash (quote_chars rest))
      else if (n =? 8)%N then String Str.backslash (String "b" (quote_chars rest))
      else if (n =? 9)%N then String Str.backslash (String "t" (quote_chars rest))
      else if (n =? 10)%N then String Str.backslash (String "n" (quote_chars rest))
      else if (n =? 12)%N then String Str.backslash (String "f" (quote_chars rest))
      else if (n =? 13)%N then String Str.backslash (String "r" (quote_chars rest))
      else if (n <? 32)%N then Str.unicode_escape n +:+ quote_chars rest
      else if (n =? 237)%N then
        match rest with
        | String c2 (String c3 rest') =>
            let n2 := N_of_ascii c2 in
            let n3 := N_of_ascii c3 in
            if ((160 <=? n2) && (n2 <=? 191))%N then
              Str.unicode_escape
                (53248 + 64 * N.land n2 63 + N.land n3 63)%N
              +:+ quote_chars rest'
            else plain
        | _ => plain
        end
      else plain
  end.

Definition QuoteJSONString (s : string) : string :=
  String Str.dquote (quote_chars s +:+ String Str.dquote EmptyString).

Definition gap : string := "  ".
Definition newline : string := String (ascii_of_N 10) EmptyString.

(** [SerializeJSONProperty] with the current indentation; the cases of
    [SerializeJSONArray] and [SerializeJSONObject] are inlined. *)
Fixpoint serialize (indent : string) (v : json number) : string :=
  match v with
  | JNull => "null"
  | JBool true => "true"
  | JBool false => "false"
  | JString s => QuoteJSONString s
  | JNumber n => if number_is_finite n then number_to_string n else "null"
  | JArray [] => "[]"
  | JArray elements =>
      let stepback := indent in
      let indent := indent +:+ gap in
      "[" +:+ newline +:+ indent
      +:+ Str.join ("," +:+ newline +:+ indent) (map (serialize indent) elements)
      +:+ newline +:+ stepback +:+ "]"
  | JObject [] => "{}"
  | JObject properties =>
      let stepback := indent in
      let indent := indent +:+ gap in
      "{" +:+ newline +:+ indent
      +:+ Str.join ("," +:+ newline +:+ indent)
            (map (fun p => QuoteJSONString (fst p) +:+ ": " +:+ serialize indent (snd p))
                 properties)
      +:+ newline +:+ stepback +:+ "}"
  end.

Definition JSON_stringify (value : json number) : string :=
  serialize EmptyString value.

(** The layout [JSON.stringify] gives with a gap of two spaces, stated
    on its own: a scalar is its JSON literal; an empty array or object
    is a pair of brackets; any other array or object opens its bracket,
    puts each member on a line of its own, two more spaces in than the
    enclosing value, members separated by a comma at the end of the
    line, and closes the bracket on a line at the enclosing
    indentation.  A member of an object is its quoted key, a colon, a
    space and its value. *)
#[warnings="-register-all"]
Inductive PrettyPrinted : string -> json number -> string -> Prop :=
| Pretty_null indent : PrettyPrinted indent JNull "null"
| Pretty_true indent : PrettyPrinted indent (JBool true) "true"
| Pretty_false indent : PrettyPrinted indent (JBool false) "false"
| Pretty_string indent s : PrettyPrinted indent (JString s) (QuoteJSONString s)
| Pretty_number indent n :
    number_is_finite n = true ->
    PrettyPrinted indent (JNumber n) (number_to_string n)
| Pretty_no_number indent n :
    number_is_finite n = false ->
    PrettyPrinted indent (JNumber n) "null"
| Pretty_empty_array indent : PrettyPrinted indent (JArray []) "[]"
| Pretty_array indent elements texts :
    elements <> [] ->
    Forall2 (PrettyPrinted (indent +:+ "  ")) elements texts ->
    PrettyPrinted indent (JArray elements)
      ("[" +:+ newline +:+ (indent +:+ "  ")
       +:+ Str.join ("," +:+ newline +:+ (indent +:+ "  ")) texts
       +:+ newline +:+ indent +:+ "]")
| Pretty_empty_object indent : PrettyPrinted indent (JObject []) "{}"
| Pretty_object indent properties texts :
    properties <> [] ->
    Forall2 (fun member text => PrettyPrinted (indent +:+ "  ") (snd member) text)
      properties texts ->
    PrettyPrinted indent (JObject properties)
      ("{" +:+ newline +:+ (indent +:+ "  ")
       +:+ Str.join ("," +:+ newline +:+ (indent +:+ "  "))
             (zip_with (fun member text => QuoteJSONString (fst member) +:+ ": " +:+ text)
                properties texts)
       +:+ newline +:+ indent +:+ "}").

End Builtins.

(** Numbers given by their decimal rendering: the instance used to run
    the model on concrete inputs. *)
#[export] Instance rendered_number : JSNumber string := {|
  number_is_falsy s := bool_decide (s = "0") || bool_decide (s = "NaN");
  number_is_finite s :=
    negb (bool_decide (s = "NaN") || bool_decide (s = "Infinity")
          || bool_decide (s = "-Infinity"));
  number_to_string s := s;
|}.


(** ** The browser state *)

(** A [File] of the file input's [FileList]; the script never looks
    inside one. *)
Record File : Type := {
  file_name : string;
  file_type : string;
  file_bytes : list Byte.byte;
}.

(** The entry list of a [FormData]. *)
Definition FormData : Type := list (string * File).

Definition FormData_new : FormData := [].

Definition FormData_append (formData : FormData) (name : string) (value : File)
  : FormData :=
  formData ++ [(name, value)].

(** What [fetch(url, {method, body})] sends.  A [FormData] body goes out
    as [multipart/form-data], one part per entry. *)
Record Request : Type := {
  req_url : string;
  req_method : string;
  req_body : FormData;
}.

Record Response : Type := { resp_status : nat }.

(** [response.ok]: the status is in the range 200 to 299. *)
Definition ok (response : Response) : bool :=
  (200 <=? resp_status response) && (resp_status response <=? 299).

(** What the script can change: the status element, the result section
    and its [pre] (the form only carries the listener), the console and
    the requests sent so far. *)
Record Page : Type := {
  statusEl_textContent : string;
  statusEl_className : string;
  resultSection_hidden : bool;
  resultPre_textContent : string;
  console : list js_error;
  requests : list Request;
}.

Definition set_statusEl_textContent (v : string) (p : Page) : Page :=
  {| statusEl_textContent := v;
     statusEl_className := statusEl_className p;
     resultSection_hidden := resultSection_hidden p;
     resultPre_textContent := resultPre_textContent p;
     console := console p;
     requests := requests p |}.

Definition set_statusEl_className (v : string) (p : Page) : Page :=
  {| statusEl_textContent := statusEl_textContent p;
     statusEl_className := v;
     resultSection_hidden := resultSection_hidden p;
     resultPre_textContent := resultPre_textContent p;
     console := console p;
     requests := requests p |}.

Definition set_resultSection_hidden (v : bool) (p : Page) : Page :=
  {| statusEl_textContent := statusEl_textContent p;
     statusEl_className := statusEl_className p;
     resultSection_hidden := v;
     resultPre_textContent := resultPre_textContent p;
     console := console p;
     requests := requests p |}.

Definition set_resultPre_textContent (v : string) (p : Page) : Page :=
  {| statusEl_textContent := statusEl_textContent p;
     statusEl_className := statusEl_className p;
     resultSection_hidden := resultSection_hidden p;
     resultPre_textContent := v;
     console := console p;
     requests := requests p |}.

Definition log_error (e : js_error) (p : Page) : Page :=
  {| statusEl_textContent := statusEl_textContent p;
     statusEl_className := statusEl_className p;
     resultSection_hidden := resultSection_hidden p;
     resultPre_textContent := resultPre_textContent p;
     console := console p ++ [e];
     requests := requests p |}.

Definition send (r : Request) (p : Page) : Page :=
  {| statusEl_textContent := statusEl_textContent p;
     statusEl_className := statusEl_className p;
     resultSection_hidden := resultSection_hidden p;
     resultPre_textContent := resultPre_textContent p;
     console := console p;
     requests := requests p ++ [r] |}.

(** ** Statements: state passing with exceptions *)

Definition of_settled {A} (s : Settled A) : Completion A :=
  match s with
  | Fulfilled v => Normal v
  | Rejected e => Throw e
  end.

Definition Js (A : Type) : Type := Page -> Page * Completion A.

Definition ret {A} (a : A) : Js A := fun p => (p, Normal a).

Definition bind {A B} (m : Js A) (k : A -> Js B) : Js B :=
  fun p =>
    match m p with
    | (p', Normal a) => k a p'
    | (p', Throw e) => (p', Throw e)
    end.

Definition effect (f : Page -> Page) : Js unit := fun p => (f p, Normal tt).

Definition complete {A} (c : Completion A) : Js A := fun p => (p, c).

(** [await promise], resumed once the promise is settled: the
    fulfilment value, or the rejection reason thrown. *)
Definition await {A} (promise : Settled A) : Js A := complete (of_settled promise).

(** [try { body } catch (error) { handler }] *)
Definition try_catch {A} (body : Js A) (handler : js_error -> Js A) : Js A :=
  fun p =>
    match body p with
    | (p', Normal a) => (p', Normal a)
    | (p', Throw e) => handler e p'
    end.

Declare Scope js_scope.
Delimit Scope js_scope with js.
Notation "'let*' x ':=' m 'in' k" := (bind m (fun x => k))
  (at level 10, x name, m at level 100, k at level 200) : js_scope.
Notation "m ;; k" := (bind m (fun _ => k))
  (at level 100, k at level 200, right associativity) : js_scope.

Definition ellipsis : string :=
  String (ascii_of_N 226) (String (ascii_of_N 128) (String (ascii_of_N 166) EmptyString)).


(** ** The script *)

Inductive Task : Type :=
| AwaitingFetch
| AwaitingJson (response : Response).

Section Controller.
Context {number : Type} `{JSNumber number}.
Local Open Scope js_scope.

(** [function setStatus(message, isError = false)] *)
Definition setStatus (message : json number) (isError : bool) : Js unit :=
  let* text := complete (DOMString_of message) in
  effect (set_statusEl_textContent text) ;;
  effect (set_statusEl_className (if isError then "status error" else "status")).

(** [function showResult(data)] *)
Definition showResult (data : json number) : Js unit :=
  effect (set_resultPre_textContent (JSON_stringify data)) ;;
  effect (set_resultSection_hidden false).

(** [fetch('/analyze', { method: 'POST', body: formData })]: the request
    leaves; its promise is settled by a later event. *)
Definition fetch (url method : string) (body : FormData) : Js unit :=
  effect (send {| req_url := url; req_method := method; req_body := body |}).

(** [payload.error || 'The analysis failed.'] *)
Definition or_else (v : js_value) (alternative : json number) : json number :=
  match v with
  | Some x => if ToBoolean v then x else alternative
  | None => alternative
  end.

(** The [catch (error)] clause of the listener. *)
Definition catch_clause (error : js_error) : Js (option Task) :=
  effect (log_error error) ;;
  setStatus (JString "Unexpected error while analyzing the image.") true ;;
  ret None.

(** The listener from its start to the first [await]: the result is
    the point where it is suspended, or [None] once it has returned.
    [files] is [fileInput.files]; [event.preventDefault()] only keeps
    the browser from navigating and has no part in the state. *)
Definition on_submit (files : list File) : Js (option Task) :=
  match files with
  | [] =>
      setStatus (JString "Please choose a PNG or JPEG file to analyze.") true ;;
      ret None
  | file0 :: _ =>
      let formData := FormData_append FormData_new "image" file0 in
      setStatus (JString ("Analyzing image" +:+ ellipsis)) false ;;
      effect (set_resultSection_hidden true) ;;
      fetch "/analyze" "POST" formData ;;
      ret (Some AwaitingFetch)
  end.

(** From [const response = await fetch(...)] to the second [await]. *)
Definition on_fetch_settled (fetched : Settled Response) : Js (option Task) :=
  try_catch
    (let* response := await fetched in
     ret (Some (AwaitingJson response)))
    catch_clause.

(** From [const payload = await response.json()] to the end. *)
Definition on_json_settled (response : Response) (parsed : Settled (json number))
  : Js (option Task) :=
  try_catch
    (let* payload := await parsed in
     if negb (ok response) then
       let* error := complete (Get payload "error") in
       let message := or_else error (JString "The analysis failed.") in
       setStatus message true ;;
       ret None
     else
       setStatus (JString "Analysis complete.") false ;;
       showResult payload ;;
       ret None)
    catch_clause.

(** ** The event loop *)

Inductive Event : Type :=
| Submit (files : list File)
| FetchSettled (id : nat) (fetched : Settled Response)
| JsonSettled (id : nat) (parsed : Settled (json number)).

(** The page with the submissions that are suspended at an [await]. *)
Record System : Type := {
  page : Page;
  pending : gmap nat Task;
  next_id : nat;
}.

(** Run one segment of submission [id] on the page and record where
    it stopped. *)
Definition resume (id : nat) (segment : Js (option Task)) (s : System) : System :=
  let '(p, c) := segment (page s) in
  {| page := p;
     pending :=
       match c with
       | Normal (Some t) => <[id := t]> (pending s)
       | _ => delete id (pending s)
       end;
     next_id := next_id s |}.

Definition step (e : Event) (s : System) : option System :=
  match e with
  | Submit files =>
      Some (resume (next_id s) (on_submit files)
              {| page := page s; pending := pending s; next_id := S (next_id s) |})
  | FetchSettled id fetched =>
      match pending s !! id with
      | Some AwaitingFetch => Some (resume id (on_fetch_settled fetched) s)
      | _ => None
      end
  | JsonSettled id parsed =>
      match pending s !! id with
      | Some (AwaitingJson response) =>
          Some (resume id (on_json_settled response parsed) s)
      | _ => None
      end
  end.

Fixpoint run (events : list Event) (s : System) : option System :=
  match events with
  | [] => Some s
  | e :: rest =>
      match step e s with
      | Some s' => run rest s'
      | None => None
      end
  end.

(** What the network answers to one request. *)
Inductive Reply : Type :=
| NoResponse (reason : js_error)
| Responded (response : Response) (parsed : Settled (json number)).

(** The events of one submission that nothing interleaves with. *)
Definition submission (id : nat) (files : list File) (reply : Reply) : list Event :=
  match files, reply with
  | [], _ => [Submit files]
  | _, NoResponse reason => [Submit files; FetchSettled id (Rejected reason)]
  | _, Responded response parsed =>
      [Submit files; FetchSettled id (Fulfilled response); JsonSettled id parsed]
  end.

Definition submit_and_settle (files : list File) (reply : Reply) (s : System)
  : option System :=
  run (submission (next_id s) files reply) s.

(** ** The state of the submission, read off the page *)

(** The script keeps no variable for the state of a submission: the
    state is what the status element shows.  An error is marked by the
    class; the two other messages of the script tell [Analyzing] from
    [Success]; anything else is a page on which nothing was submitted. *)
Inductive SubmissionState : Type := Idle | Analyzing | Success | Error.

Definition submission_state (p : Page) : SubmissionState :=
  if bool_decide (statusEl_className p = "status error") then Error
  else if bool_decide (statusEl_textContent p = "Analyzing image" +:+ ellipsis) then Analyzing
  else if bool_decide (statusEl_textContent p = "Analysis complete.") then Success
  else Idle.

(** What the user sees. *)
Definition visible_state (p : Page) : string * string * bool * string :=
  (statusEl_textContent p, statusEl_className p,
   resultSection_hidden p, resultPre_textContent p).

End Controller.

(** The request of a submission of [f], and the page once the listener
    has reached [await fetch(...)]: abbreviations for the statements
    below. *)
Definition analyze_request (f : File) : Request :=
  {| req_url := "/analyze"; req_method := "POST"; req_body := [("image", f)] |}.

Definition status_line (p : Page) : string * string :=
  (statusEl_textContent p, statusEl_className p).

Definition analyzing_page (f : File) (p : Page) : Page :=
  {| statusEl_textContent := "Analyzing image" +:+ ellipsis;
     statusEl_className := "status";
     resultSection_hidden := true;
     resultPre_textContent := resultPre_textContent p;
     console := console p;
     requests := requests p ++ [analyze_request f] |}.

(** ** Example inputs *)

(** A page on which nothing has been submitted yet; the markup is not
    part of the script, so the theorems below quantify over the page and
    use this one only to run the model. *)
Definition fresh_page : Page :=
  {| statusEl_textContent := EmptyString;
     statusEl_className := "status";
     resultSection_hidden := true;
     resultPre_textContent := EmptyString;
     console := [];
     requests := [] |}.

Definition fresh : System := {| page := fresh_page; pending := ∅; next_id := 0 |}.

Definition photo : File :=
  {| file_name := "scene.png"; file_type := "image/png"; file_bytes := [] |}.

Definition region_body : json string :=
  JObject [("region", JString "coastal-plain"); ("confidence", JNumber "0.82")].

(** A text between double quotes, and a line break, written out for
    the expected texts below. *)
Definition in_quotes (text : string) : string :=
  String (ascii_of_N 34) (text +:+ String (ascii_of_N 34) EmptyString).

Definition line_break : string := String (ascii_of_N 10) EmptyString.

(** The text of [region_body], line by line. *)
Definition region_body_text : string :=
  "{" +:+ line_break
  +:+ "  " +:+ in_quotes "region" +:+ ": " +:+ in_quotes "coastal-plain" +:+ ","
  +:+ line_break
  +:+ "  " +:+ in_quotes "confidence" +:+ ": 0.82" +:+ line_break
  +:+ "}".

(** A body with nested and empty members, [null], and a string that
    holds a double quote and a backslash; and its text. *)
Definition nested_body : json string :=
  JObject
    [("tags",
      JArray [JString (String (ascii_of_N 34) (String (ascii_of_N 92) "c"));
              JNull; JBool true; JArray []]);
     ("extent", JObject []);
     ("size", JObject [("w", JNumber "1")])].

Definition nested_body_text : string :=
  "{" +:+ line_break
  +:+ "  " +:+ in_quotes "tags" +:+ ": [" +:+ line_break
  +:+ "    "
  +:+ in_quotes
        (String (ascii_of_N 92) (String (ascii_of_N 34)
           (String (ascii_of_N 92) (String (ascii_of_N 92) "c"))))
  +:+ "," +:+ line_break
  +:+ "    null," +:+ line_break
  +:+ "    true," +:+ line_break
  +:+ "    []" +:+ line_break
  +:+ "  ]," +:+ line_break
  +:+ "  " +:+ in_quotes "extent" +:+ ": {}," +:+ line_break
  +:+ "  " +:+ in_quotes "size" +:+ ": {" +:+ line_break
  +:+ "    " +:+ in_quotes "w" +:+ ": 1" +:+ line_break
  +:+ "  }" +:+ line_break
  +:+ "}".

Definition bad_request : Response := {| resp_status := 400 |}.
Definition success : Response := {| resp_status := 200 |}.


Definition empty_error : json string := JObject [("error", JString EmptyString)].

Definition failed_to_fetch : js_error := HostError "TypeError" "Failed to fetch".

(** The state a submission with no file leaves on the fresh page. *)
Definition after_no_file : System :=
  {| page :=
       {| statusEl_textContent := "Please choose a PNG or JPEG file to analyze.";
          statusEl_className := "status error";
          resultSection_hidden := true;
          resultPre_textContent := EmptyString;
          console := [];
          requests := [] |};
     pending := ∅;
     next_id := 1 |}.

(** ** Whole runs *)

(** The requests a sequence of events sends, in order: one for each
    [submit] with a file selected. *)
Definition sent_by {number : Type} (events : list (Event (number := number)))
  : list Request :=
  flat_map
    (fun ev =>
       match ev with
       | Submit (f :: _) => [analyze_request f]
       | _ => []
       end)
    events.

(** The status line as one call of [setStatus] in the listener leaves
    it: the error class, or the plain class with one of the two
    messages that go with it. *)
Definition coherent (p : Page) : Prop :=
  statusEl_className p = "status error"
  \/ (statusEl_className p = "status"
      /\ (statusEl_textContent p = "Analyzing image" +:+ ellipsis
          \/ statusEl_textContent p = "Analysis complete.")).

Definition aerial : File :=
  {| file_name := "aerial.jpg"; file_type := "image/jpeg"; file_bytes := [] |}.

Definition desert_body : json string := JObject [("region", JString "desert")].

Definition structured_error : json string :=
  JObject [("error", JObject [("code", JNumber "415")])].

(** An [error] value with a [toString] key of its own. *)
Definition unprintable_error : json string :=
  JObject [("error", JObject [("toString", JNumber "1")])].

(** A page whose one submission has its response, with status 400, and
    awaits the body. *)
Definition awaiting_body : System :=
  {| page := analyzing_page photo fresh_page;
     pending := {[0 := AwaitingJson bad_request]};
     next_id := 1 |}.

(** Two submits in a row, a submit with no file, and the first request
    failing. *)
Definition busy_afternoon : list (Event (number := string)) :=
  [Submit [photo]; Submit [aerial]; Submit []; FetchSettled 0 (Rejected failed_to_fetch)].

Definition rejected_after_no_file : list (Event (number := string)) :=
  [Submit []; Submit [photo]; FetchSettled 1 (Fulfilled bad_request);
   JsonSettled 1 (Fulfilled empty_error)].

(** Looks a submission up among the pending ones after a few steps. *)
Ltac pending_lookup :=
  cbn [pending];
  repeat first
    [ rewrite lookup_insert_eq
    | rewrite lookup_insert_ne by lia
    | rewrite lookup_delete_ne by lia ];
  reflexivity.

(** * Properties *)

Example ellipsis_utf8 : "Analyzing image…" = "Analyzing image" +:+ ellipsis.
Proof. reflexivity. Qed.

Example stringify_spec_body :
  JSON_stringify
    (JObject [("region", JString "coastal-plain"); ("confidence", JNumber "0.82")])
  = "{" +:+ newline
    +:+ "  " +:+ QuoteJSONString "region" +:+ ": "
    +:+ QuoteJSONString "coastal-plain" +:+ "," +:+ newline
    +:+ "  " +:+ QuoteJSONString "confidence" +:+ ": 0.82" +:+ newline
    +:+ "}".
Proof. reflexivity. Qed.

Section Properties.
Context {number : Type} `{JSNumber number}.
Implicit Types (s : System) (p : Page) (f : File) (rest : list File).
Implicit Types (response : Response) (payload : json number) (e : js_error).

(** *** The segments, one by one *)

Lemma on_submit_file f rest p :
  on_submit (number := number) (f :: rest) p
  = (analyzing_page f p, Normal (Some AwaitingFetch)).
Proof. reflexivity. Qed.

Lemma on_submit_no_file p :
  on_submit (number := number) [] p
  = (set_statusEl_className "status error"
       (set_statusEl_textContent "Please choose a PNG or JPEG file to analyze." p),
     Normal None).
Proof. reflexivity. Qed.

Lemma catch_clause_spec e p :
  catch_clause (number := number) e p
  = ({| statusEl_textContent := "Unexpected error while analyzing the image.";
        statusEl_className := "status error";
        resultSection_hidden := resultSection_hidden p;
        resultPre_textContent := resultPre_textContent p;
        console := console p ++ [e];
        requests := requests p |},
     Normal None).
Proof. reflexivity. Qed.

Lemma on_fetch_fulfilled response p :
  on_fetch_settled (number := number) (Fulfilled response) p
  = (p, Normal (Some (AwaitingJson response))).
Proof. reflexivity. Qed.

Lemma on_fetch_rejected e p :
  on_fetch_settled (number := number) (Rejected e) p = catch_clause e p.
Proof. reflexivity. Qed.

Lemma on_json_rejected response e p :
  on_json_settled (number := number) response (Rejected e) p = catch_clause e p.
Proof. reflexivity. Qed.

Lemma on_json_ok response payload p :
  ok response = true ->
  on_json_settled response (Fulfilled payload) p
  = ({| statusEl_textContent := "Analysis complete.";
        statusEl_className := "status";
        resultSection_hidden := false;
        resultPre_textContent := JSON_stringify payload;
        console := console p;
        requests := requests p |},
     Normal None).
Proof.
  intros Hok. unfold on_json_settled, try_catch, bind, await, complete.
  cbn [of_settled]. rewrite Hok. reflexivity.
Qed.

Lemma on_json_not_ok_null response p :
  ok response = false ->
  on_json_settled (number := number) response (Fulfilled JNull) p
  = catch_clause (TypeError_property_of_null "error") p.
Proof.
  intros Hok. unfold on_json_settled, try_catch, bind, await, complete.
  cbn [of_settled]. rewrite Hok. reflexivity.
Qed.

Lemma on_json_not_ok response payload error text p :
  ok response = false ->
  Get payload "error" = Normal error ->
  DOMString_of (or_else error (JString "The analysis failed.")) = Normal text ->
  on_json_settled response (Fulfilled payload) p
  = ({| statusEl_textContent := text;
        statusEl_className := "status error";
        resultSection_hidden := resultSection_hidden p;
        resultPre_textContent := resultPre_textContent p;
        console := console p;
        requests := requests p |},
     Normal None).
Proof.
  intros Hok Hget Htext.
  unfold on_json_settled, try_catch, bind, await, complete, setStatus, bind, complete.
  cbn [of_settled]. rewrite Hok. cbn [negb]. rewrite Hget, Htext. reflexivity.
Qed.

(** The message cannot be converted: [setStatus] throws before it
    writes anything, inside the [try]. *)
Lemma on_json_not_ok_unprintable response payload error e p :
  ok response = false ->
  Get payload "error" = Normal error ->
  DOMString_of (or_else error (JString "The analysis failed.")) = Throw e ->
  on_json_settled response (Fulfilled payload) p = catch_clause e p.
Proof.
  intros Hok Hget Htext.
  unfold on_json_settled, try_catch, bind, await, complete, setStatus, bind, complete.
  cbn [of_settled]. rewrite Hok. cbn [negb]. rewrite Hget, Htext. reflexivity.
Qed.

Lemma on_json_settled_cases response parsed p :
  on_json_settled response parsed p
  = match parsed with
    | Rejected e => catch_clause e p
    | Fulfilled payload =>
        if ok response then
          ({| statusEl_textContent := "Analysis complete.";
              statusEl_className := "status";
              resultSection_hidden := false;
              resultPre_textContent := JSON_stringify payload;
              console := console p;
              requests := requests p |},
           Normal None)
        else
          match Get payload "error" with
          | Throw e => catch_clause e p
          | Normal error =>
              match DOMString_of (or_else error (JString "The analysis failed.")) with
              | Throw e => catch_clause e p
              | Normal text =>
                  ({| statusEl_textContent := text;
                      statusEl_className := "status error";
                      resultSection_hidden := resultSection_hidden p;
                      resultPre_textContent := resultPre_textContent p;
                      console := console p;
                      requests := requests p |},
                   Normal None)
              end
          end
    end.
Proof.
  destruct parsed as [payload | e]; [| reflexivity].
  destruct (ok response) eqn:Hok.
  - apply on_json_ok, Hok.
  - destruct (Get payload "error") as [error | e] eqn:Hget.
    + destruct (DOMString_of (or_else error (JString "The analysis failed.")))
        as [text | e] eqn:Htext.
      * apply (on_json_not_ok _ _ error); assumption.
      * apply (on_json_not_ok_unprintable _ _ error); assumption.
    + destruct payload; try discriminate Hget.
      injection Hget as <-. apply on_json_not_ok_null, Hok.
Qed.

Lemma on_json_settled_returns response parsed p :
  (on_json_settled response parsed p).2 = Normal None.
Proof.
  rewrite on_json_settled_cases.
  destruct parsed;
    [destruct (ok response); [| destruct (Get _ _); [destruct (DOMString_of _) |]] |];
    reflexivity.
Qed.

Lemma on_json_settled_requests response parsed p :
  requests (on_json_settled response parsed p).1 = requests p.
Proof.
  rewrite on_json_settled_cases.
  destruct parsed;
    [destruct (ok response); [| destruct (Get _ _); [destruct (DOMString_of _) |]] |];
    reflexivity.
Qed.

(** A truthy value reaches [textContent] through [ToString]. *)
Lemma DOMString_of_truthy (v : json number) alternative :
  ToBoolean (Some v) = true ->
  DOMString_of (or_else (Some v) alternative) = ToString v.
Proof.
  intros Hv. unfold or_else. rewrite Hv.
  destruct v; try reflexivity. discriminate Hv.
Qed.

Lemma or_else_falsy (error : js_value) alternative :
  ToBoolean error = false -> or_else error alternative = alternative.
Proof.
  intros Hv. destruct error as [v |]; [| reflexivity].
  unfold or_else. rewrite Hv. reflexivity.
Qed.

(** *** The layout of the result *)

Lemma zip_with_map_r {A B C : Type} (g : A -> B -> C) (h : A -> B) (l : list A) :
  zip_with g l (map h l) = map (fun a => g a (h a)) l.
Proof.
  induction l as [| a l IH]; [reflexivity |].
  cbn [map zip_with]. rewrite IH. reflexivity.
Qed.

(** [JSON.stringify] lays every value out as [PrettyPrinted] says. *)
Lemma serialize_pretty :
  forall (v : json number) indent, PrettyPrinted indent v (serialize indent v).
Proof.
  fix IH 1. intros v indent.
  destruct v as [| [|] | n | str | elements | properties].
  - apply Pretty_null.
  - apply Pretty_true.
  - apply Pretty_false.
  - cbn [serialize]. destruct (number_is_finite n) eqn:Hn.
    + apply Pretty_number, Hn.
    + apply Pretty_no_number, Hn.
  - apply Pretty_string.
  - destruct elements as [| e es]; [apply Pretty_empty_array |].
    apply (Pretty_array indent (e :: es)
             (map (serialize (indent +:+ "  ")) (e :: es))); [discriminate |].
    generalize (e :: es). intros l.
    induction l as [| a l IHl]; constructor; [apply IH | exact IHl].
  - destruct properties as [| member members]; [apply Pretty_empty_object |].
    cbn [serialize].
    rewrite <- (zip_with_map_r
                  (fun member text => QuoteJSONString (fst member) +:+ ": " +:+ text)
                  (fun member => serialize (indent +:+ gap) (snd member))
                  (member :: members)).
    apply (Pretty_object indent (member :: members)); [discriminate |].
    generalize (member :: members). intros l.
    induction l as [| a l IHl]; constructor; [apply IH | exact IHl].
Qed.

(** The layout determines the text: it is the one [JSON.stringify]
    gives. *)
Lemma pretty_is_serialize :
  forall indent (v : json number) text,
    PrettyPrinted indent v text -> text = serialize indent v.
Proof.
  fix IH 4. intros indent v text Hp.
  destruct Hp as [ | | | | ? n Hn | ? n Hn | | ? elements texts Hne Hall
                 | | ? properties texts Hne Hall ]; try reflexivity.
  - cbn [serialize]. rewrite Hn. reflexivity.
  - cbn [serialize]. rewrite Hn. reflexivity.
  - assert (Htexts : texts = map (serialize (indent +:+ "  ")) elements).
    { clear Hne. induction Hall as [| a t l ts Hat _ IHl]; [reflexivity |].
      cbn [map]. f_equal; [apply IH, Hat | exact IHl]. }
    subst texts. destruct elements; [contradiction | reflexivity].
  - assert (Htexts :
      texts = map (fun member => serialize (indent +:+ "  ") (snd member)) properties).
    { clear Hne. induction Hall as [| a t l ts Hat _ IHl]; [reflexivity |].
      cbn [map]. f_equal; [apply IH, Hat | exact IHl]. }
    subst texts. rewrite zip_with_map_r.
    destruct properties; [contradiction | reflexivity].
Qed.

(** *** A whole submission *)

Lemma submit_and_settle_no_file reply s :
  submit_and_settle [] reply s = step (Submit []) s.
Proof.
  unfold submit_and_settle, submission. cbn [run].
  destruct (step (Submit []) s); reflexivity.
Qed.

Lemma step_submit_file f rest s :
  step (number := number) (Submit (f :: rest)) s
  = Some {| page := analyzing_page f (page s);
            pending := <[next_id s := AwaitingFetch]> (pending s);
            next_id := S (next_id s) |}.
Proof. reflexivity. Qed.

Lemma step_submit_no_file s :
  step (number := number) (Submit []) s
  = Some {| page :=
              set_statusEl_className "status error"
                (set_statusEl_textContent
                   "Please choose a PNG or JPEG file to analyze." (page s));
            pending := delete (next_id s) (pending s);
            next_id := S (next_id s) |}.
Proof. reflexivity. Qed.

Lemma step_fetch_fulfilled id response s :
  pending s !! id = Some AwaitingFetch ->
  step (number := number) (FetchSettled id (Fulfilled response)) s
  = Some {| page := page s;
            pending := <[id := AwaitingJson response]> (pending s);
            next_id := next_id s |}.
Proof. intros Hid. cbn [step]. rewrite Hid. reflexivity. Qed.

Lemma step_fetch_rejected id e s :
  pending s !! id = Some AwaitingFetch ->
  step (number := number) (FetchSettled id (Rejected e)) s
  = Some {| page := (catch_clause (number := number) e (page s)).1;
            pending := delete id (pending s);
            next_id := next_id s |}.
Proof. intros Hid. cbn [step]. rewrite Hid. reflexivity. Qed.

Lemma step_json id response parsed s :
  pending s !! id = Some (AwaitingJson response) ->
  step (JsonSettled id parsed) s
  = Some (resume id (on_json_settled response parsed) s).
Proof. intros Hid. cbn [step]. rewrite Hid. reflexivity. Qed.

Lemma submit_and_settle_no_response f rest e s :
  submit_and_settle (f :: rest) (NoResponse e) s
  = Some {| page := (catch_clause (number := number) e (analyzing_page f (page s))).1;
            pending := delete (next_id s) (<[next_id s := AwaitingFetch]> (pending s));
            next_id := S (next_id s) |}.
Proof.
  unfold submit_and_settle, submission. cbn [run].
  rewrite step_submit_file, step_fetch_rejected; [reflexivity |].
  apply lookup_insert_eq.
Qed.

Lemma submit_and_settle_responded f rest response parsed s :
  submit_and_settle (f :: rest) (Responded response parsed) s
  = Some (resume (next_id s) (on_json_settled response parsed)
            {| page := analyzing_page f (page s);
               pending :=
                 <[next_id s := AwaitingJson response]>
                   (<[next_id s := AwaitingFetch]> (pending s));
               next_id := S (next_id s) |}).
Proof.
  unfold submit_and_settle, submission. cbn [run].
  rewrite step_submit_file, step_fetch_fulfilled by apply lookup_insert_eq.
  cbn [page pending next_id].
  rewrite (step_json _ response) by apply lookup_insert_eq.
  reflexivity.
Qed.

Lemma page_resume id segment s :
  page (resume id segment s) = (segment (page s)).1.
Proof. unfold resume. destruct (segment (page s)). reflexivity. Qed.

(** *** The specification, property by property *)

(** A submission with no file selected, in any state of the system and
    whatever else is in flight: the status text is set to "Please
    choose a PNG or JPEG file to analyze." (with the error class), no
    request is sent, the listener suspends at no [await], and the
    result section is left as it was. *)
Lemma no_file_submit_effect s :
  exists s',
    step (number := number) (Submit []) s = Some s'
    /\ statusEl_textContent (page s')
       = "Please choose a PNG or JPEG file to analyze."
    /\ statusEl_className (page s') = "status error"
    /\ requests (page s') = requests (page s)
    /\ pending s' !! next_id s = None
    /\ resultSection_hidden (page s') = resultSection_hidden (page s).
Proof.
  eexists. split; [apply step_submit_no_file |].
  cbn [page pending]. repeat split. apply lookup_delete_eq.
Qed.

(** C2, as the script behaves: a submission with no file selected sets
    the status text to "Please choose a PNG or JPEG file to analyze."
    and sends no request, but it does not hide the result section:
    taken after a submission that succeeded, it leaves the section
    shown, where the property wants it hidden. *)
Theorem C2_no_file_after_success_result_not_hidden s f rest response payload :
  ok response = true ->
  exists s1 s2,
    submit_and_settle (f :: rest) (Responded response (Fulfilled payload)) s
    = Some s1
    /\ step (Submit []) s1 = Some s2
    /\ statusEl_textContent (page s2)
       = "Please choose a PNG or JPEG file to analyze."
    /\ requests (page s2) = requests (page s1)
    /\ resultSection_hidden (page s1) = false
    /\ resultSection_hidden (page s2) = false.
Proof.
  intros Hok. eexists. eexists.
  split; [apply submit_and_settle_responded |].
  split; [apply step_submit_no_file |].
  cbn [page]. rewrite page_resume, on_json_ok by exact Hok.
  cbn [fst]. repeat split.
Qed.

(** C4: when the response has a status from 200 to 299 and its body
    parses, the submission ends in [Success]: the status reads
    "Analysis complete." without the error class, the result text is
    [JSON.stringify(payload, null, 2)], that is the payload laid out
    as [PrettyPrinted] describes (one member per line, two spaces per
    level), and the result section is shown. *)
Theorem C4_success_renders_payload s f rest response payload :
  ok response = true ->
  exists s',
    submit_and_settle (f :: rest) (Responded response (Fulfilled payload)) s = Some s'
    /\ submission_state (page s') = Success
    /\ statusEl_textContent (page s') = "Analysis complete."
    /\ statusEl_className (page s') = "status"
    /\ resultPre_textContent (page s') = JSON_stringify payload
    /\ PrettyPrinted EmptyString payload (resultPre_textContent (page s'))
    /\ resultSection_hidden (page s') = false.
Proof.
  intros Hok. eexists. split; [apply submit_and_settle_responded |].
  rewrite page_resume, on_json_ok by exact Hok.
  cbn [page fst resultPre_textContent]. repeat split.
  apply serialize_pretty.
Qed.

(** C5: when [fetch] rejects, or [response.json()] rejects at whatever
    HTTP status, the submission ends in [Error] with the status text
    "Unexpected error while analyzing the image.", the reason is
    logged on the console and the result section, hidden when the
    request left, is still hidden. *)
Theorem C5_thrown_error_reported s f rest reply e :
  reply = NoResponse e
  \/ (exists response, reply = Responded response (Rejected e)) ->
  exists s',
    submit_and_settle (number := number) (f :: rest) reply s = Some s'
    /\ submission_state (page s') = Error
    /\ statusEl_textContent (page s')
       = "Unexpected error while analyzing the image."
    /\ statusEl_className (page s') = "status error"
    /\ console (page s') = console (page s) ++ [e]
    /\ resultSection_hidden (page s') = true.
Proof.
  intros [-> | [response ->]]; eexists.
  - split; [apply submit_and_settle_no_response |].
    rewrite catch_clause_spec. cbn [page fst]. repeat split.
  - split; [apply submit_and_settle_responded |].
    rewrite page_resume, on_json_rejected, catch_clause_spec.
    cbn [page fst]. repeat split.
Qed.

(** C6: a submission with a file selected sends exactly one request,
    whatever the reply: a POST to [/analyze] whose body is a form data
    with the single entry [image], holding the first selected file.
    Step by step: only the [Submit] event of such a submission sends
    a request. *)
Theorem C6_one_post_with_image_field :
  (forall s f rest reply,
      exists s',
        submit_and_settle (number := number) (f :: rest) reply s = Some s'
        /\ requests (page s')
           = requests (page s)
             ++ [{| req_url := "/analyze"; req_method := "POST";
                    req_body := [("image", f)] |}])
  /\ (forall (ev : Event (number := number)) s s',
        step ev s = Some s' ->
        requests (page s')
        = requests (page s)
          ++ match ev with
             | Submit (f :: _) =>
                 [{| req_url := "/analyze"; req_method := "POST";
                     req_body := [("image", f)] |}]
             | _ => []
             end).
Proof.
  split.
  - intros s f rest [e | response parsed]; eexists.
    + split; [apply submit_and_settle_no_response |]. reflexivity.
    + split; [apply submit_and_settle_responded |].
      rewrite page_resume, on_json_settled_requests. reflexivity.
  - intros ev s s' Hstep. destruct ev as [files | id fetched | id parsed].
    + destruct files as [| f rest].
      * rewrite step_submit_no_file in Hstep. injection Hstep as <-.
        cbn [page]. symmetry. apply app_nil_r.
      * rewrite step_submit_file in Hstep. injection Hstep as <-. reflexivity.
    + cbn [step] in Hstep.
      destruct (pending s !! id) as [[| response] |]; try discriminate Hstep.
      injection Hstep as <-. rewrite page_resume.
      destruct fetched; cbn; symmetry; apply app_nil_r.
    + cbn [step] in Hstep.
      destruct (pending s !! id) as [[| response] |]; try discriminate Hstep.
      injection Hstep as <-.
      rewrite page_resume, on_json_settled_requests. symmetry. apply app_nil_r.
Qed.

(** C7: once a response has arrived the listener awaits
    [response.json()] without having looked at the status (the page is
    the one the request left, whatever the status); so when the body
    does not parse,
    any response, a non-2xx one included, ends in the [catch] clause
    ("Unexpected error while analyzing the image."), never in the
    branch of the remote rejection. *)
Theorem C7_parse_before_status :
  (forall s f rest response,
      exists s',
        run (number := number)
          [Submit (f :: rest); FetchSettled (next_id s) (Fulfilled response)] s
        = Some s'
        /\ pending s' !! next_id s = Some (AwaitingJson response)
        /\ page s' = analyzing_page f (page s))
  /\ (forall s f rest response e,
        exists s',
          submit_and_settle (number := number) (f :: rest)
            (Responded response (Rejected e)) s = Some s'
          /\ statusEl_textContent (page s')
             = "Unexpected error while analyzing the image."
          /\ statusEl_textContent (page s') <> "The analysis failed."
          /\ statusEl_className (page s') = "status error"
          /\ console (page s') = console (page s) ++ [e]).
Proof.
  split.
  - intros s f rest response. eexists. cbn [run].
    rewrite step_submit_file, step_fetch_fulfilled by apply lookup_insert_eq.
    split; [reflexivity |]. cbn [page pending].
    split; [apply lookup_insert_eq | reflexivity].
  - intros s f rest response e. eexists.
    split; [apply submit_and_settle_responded |].
    rewrite page_resume, on_json_rejected, catch_clause_spec.
    cbn [page fst]. repeat split. discriminate.
Qed.

(** C1, as the script behaves: after a submission that succeeded, a
    submission with no file selected ends in [Error] while the result
    section is still shown.  The branch of the missing file returns
    before the line that hides the section. *)
Theorem C1_no_file_after_success_leaves_result_shown
  s f rest response payload reply :
  ok response = true ->
  exists s1 s2,
    submit_and_settle (f :: rest) (Responded response (Fulfilled payload)) s
    = Some s1
    /\ submit_and_settle [] reply s1 = Some s2
    /\ submission_state (page s1) = Success
    /\ submission_state (page s2) = Error
    /\ resultSection_hidden (page s2) = false.
Proof.
  intros Hok. eexists. eexists.
  split; [apply submit_and_settle_responded |].
  split; [rewrite submit_and_settle_no_file; apply step_submit_no_file |].
  cbn [page]. rewrite page_resume, on_json_ok by exact Hok.
  cbn [fst]. repeat split.
Qed.

(** Where the result can be shown once a submission is over: after a
    success, or next to the message of the missing file, which leaves
    the section as the submission before it left it. *)
Lemma result_shown_after_submission files reply s s' :
  submit_and_settle (number := number) files reply s = Some s' ->
  resultSection_hidden (page s') = true
  \/ submission_state (page s') = Success
  \/ (files = []
      /\ resultSection_hidden (page s') = resultSection_hidden (page s)).
Proof.
  destruct files as [| f rest].
  - rewrite submit_and_settle_no_file, step_submit_no_file.
    intros [= <-]. right. right. split; reflexivity.
  - destruct reply as [e | response parsed].
    + rewrite submit_and_settle_no_response. intros [= <-]. left. reflexivity.
    + rewrite submit_and_settle_responded. intros [= <-].
      rewrite page_resume, on_json_settled_cases.
      destruct parsed as [payload | e]; [| left; reflexivity].
      destruct (ok response); [right; left; reflexivity |].
      destruct (Get payload "error"); [destruct (DOMString_of _) |];
        left; reflexivity.
Qed.


(** C8: a submission that succeeds, run twice in a row from any state
    (the one an [Error] run leaves included), shows the same thing
    both times: the status text "Analysis complete.", the class
    [status], the result section shown and the serialised payload in
    it.  Nothing of the earlier state is left in what is shown. *)
Theorem C8_success_twice_same_view s f rest response payload :
  ok response = true ->
  exists s1 s2,
    submit_and_settle (f :: rest) (Responded response (Fulfilled payload)) s
    = Some s1
    /\ submit_and_settle (f :: rest) (Responded response (Fulfilled payload)) s1
       = Some s2
    /\ visible_state (page s2) = visible_state (page s1)
    /\ visible_state (page s1)
       = ("Analysis complete.", "status", false, JSON_stringify payload).
Proof.
  intros Hok. eexists. eexists.
  split; [apply submit_and_settle_responded |].
  split; [apply submit_and_settle_responded |].
  rewrite !page_resume, !on_json_ok by exact Hok.
  split; reflexivity.
Qed.

(** The falsy values a parsed body can hold. *)
Lemma falsy_values :
  ToBoolean (Some (JString EmptyString)) = false
  /\ ToBoolean (Some JNull) = false
  /\ ToBoolean (Some (JBool false)) = false
  /\ (forall n : number,
        number_is_falsy n = true -> ToBoolean (Some (JNumber n)) = false).
Proof.
  repeat split. intros n Hn. cbn [ToBoolean]. rewrite Hn. reflexivity.
Qed.

(** C9: when the response has a status outside 200 to 299 and the body
    is an object whose [error] property is present but falsy (the
    empty string, [null], zero, [false]), the status shows "The
    analysis failed." and not the value of the property. *)
Theorem C9_falsy_error_field_gives_fallback s f rest response properties v :
  ok response = false ->
  own_property "error" properties = Some v ->
  ToBoolean (Some v) = false ->
  exists s',
    submit_and_settle (f :: rest)
      (Responded response (Fulfilled (JObject properties))) s = Some s'
    /\ statusEl_textContent (page s') = "The analysis failed."
    /\ statusEl_className (page s') = "status error".
Proof.
  intros Hok Hprop Hv. eexists. split; [apply submit_and_settle_responded |].
  rewrite page_resume,
    (on_json_not_ok _ _ (Some v) "The analysis failed."); [| exact Hok | |].
  - cbn [page fst statusEl_textContent statusEl_className]. split; reflexivity.
  - cbn [Get]. rewrite Hprop. reflexivity.
  - rewrite or_else_falsy by exact Hv. reflexivity.
Qed.

(** C10: [setStatus] writes the text and the class together (or, when
    its message cannot be converted to a string, throws and writes
    neither), the class being [status error] exactly when its flag is
    set; and every step
    of the listener either leaves the status line alone (a response
    has arrived and its body is awaited) or leaves it as one call of
    [setStatus] made it: with the class [status error] for a missing
    file, a rejected [fetch] or [json()], and a response outside 200
    to 299; with the class [status] when the analysis starts and when
    it succeeds. *)
Theorem C10_text_and_class_set_together :
  (forall (message : json number) isError p,
      match DOMString_of message with
      | Normal text =>
          status_line (setStatus message isError p).1
          = (text, if isError then "status error" else "status")
      | Throw e => setStatus message isError p = (p, Throw e)
      end)
  /\ (forall (ev : Event (number := number)) s s',
        step ev s = Some s' ->
        match ev with
        | Submit [] =>
            status_line (page s')
            = ("Please choose a PNG or JPEG file to analyze.", "status error")
        | Submit (_ :: _) =>
            status_line (page s') = ("Analyzing image" +:+ ellipsis, "status")
        | FetchSettled _ (Fulfilled _) =>
            status_line (page s') = status_line (page s)
        | FetchSettled _ (Rejected _) | JsonSettled _ (Rejected _) =>
            status_line (page s')
            = ("Unexpected error while analyzing the image.", "status error")
        | JsonSettled id (Fulfilled payload) =>
            exists response,
              pending s !! id = Some (AwaitingJson response)
              /\ if ok response
                 then status_line (page s') = ("Analysis complete.", "status")
                 else
                   match Get payload "error" with
                   | Normal error =>
                       match
                         DOMString_of (or_else error (JString "The analysis failed."))
                       with
                       | Normal text =>
                           status_line (page s') = (text, "status error")
                       | Throw _ =>
                           status_line (page s')
                           = ("Unexpected error while analyzing the image.",
                              "status error")
                       end
                   | Throw _ =>
                       status_line (page s')
                       = ("Unexpected error while analyzing the image.",
                          "status error")
                   end
        end).
Proof.
  split.
  { intros message isError p. unfold setStatus, bind, complete.
    destruct (DOMString_of message); reflexivity. }
  intros ev s s' Hstep. destruct ev as [files | id fetched | id parsed].
  - destruct files as [| f rest].
    + rewrite step_submit_no_file in Hstep. injection Hstep as <-. reflexivity.
    + rewrite step_submit_file in Hstep. injection Hstep as <-. reflexivity.
  - cbn [step] in Hstep.
    destruct (pending s !! id) as [[| response] |]; try discriminate Hstep.
    injection Hstep as <-. rewrite page_resume.
    destruct fetched; reflexivity.
  - cbn [step] in Hstep.
    destruct (pending s !! id) as [[| response] |] eqn:Hid;
      try discriminate Hstep.
    injection Hstep as <-. rewrite page_resume, on_json_settled_cases.
    destruct parsed as [payload | e]; [| reflexivity].
    exists response. split; [reflexivity |].
    destruct (ok response); [reflexivity |].
    destruct (Get payload "error"); [| reflexivity].
    destruct (DOMString_of _); reflexivity.
Qed.

End Properties.

(** ** Concrete runs *)

Example after_no_file_reached : step (Submit []) fresh = Some after_no_file.
Proof. reflexivity. Qed.

Example region_body_rendered :
  option_map (fun s => visible_state (page s))
    (submit_and_settle [photo] (Responded success (Fulfilled region_body)) fresh)
  = Some ("Analysis complete.", "status", false, JSON_stringify region_body).
Proof. reflexivity. Qed.

Example nested_body_rendered : JSON_stringify nested_body = nested_body_text.
Proof. reflexivity. Qed.

Example empty_error_evaluated :
  option_map (fun s => status_line (page s))
    (submit_and_settle [photo] (Responded bad_request (Fulfilled empty_error)) fresh)
  = Some ("The analysis failed.", "status error").
Proof. reflexivity. Qed.

Lemma C1_witness :
  exists s1 s2,
    submit_and_settle [photo] (Responded success (Fulfilled region_body)) fresh
    = Some s1
    /\ submit_and_settle [] (NoResponse failed_to_fetch) s1 = Some s2
    /\ submission_state (page s1) = Success
    /\ submission_state (page s2) = Error
    /\ resultSection_hidden (page s2) = false.
Proof.
  apply (C1_no_file_after_success_leaves_result_shown
           fresh photo [] success region_body (NoResponse failed_to_fetch)).
  reflexivity.
Defined.

Lemma C2_witness :
  ok success = true
  /\ exists s1 s2,
      submit_and_settle [photo] (Responded success (Fulfilled region_body)) fresh
      = Some s1
      /\ step (Submit []) s1 = Some s2
      /\ statusEl_textContent (page s2)
         = "Please choose a PNG or JPEG file to analyze."
      /\ requests (page s2) = requests (page s1)
      /\ resultSection_hidden (page s1) = false
      /\ resultSection_hidden (page s2) = false.
Proof.
  split; [reflexivity |].
  apply (C2_no_file_after_success_result_not_hidden
           fresh photo [] success region_body).
  reflexivity.
Defined.



Lemma C4_witness :
  ok success = true
  /\ exists s',
      submit_and_settle [photo] (Responded success (Fulfilled region_body)) fresh
      = Some s'
      /\ submission_state (page s') = Success
      /\ statusEl_textContent (page s') = "Analysis complete."
      /\ statusEl_className (page s') = "status"
      /\ resultPre_textContent (page s') = region_body_text
      /\ PrettyPrinted EmptyString region_body (resultPre_textContent (page s'))
      /\ resultSection_hidden (page s') = false.
Proof.
  split; [reflexivity |].
  exact (C4_success_renders_payload fresh photo [] success region_body eq_refl).
Defined.

Lemma C5_witness :
  exists s',
    submit_and_settle (number := string) [photo] (NoResponse failed_to_fetch) fresh
    = Some s'
    /\ submission_state (page s') = Error
    /\ statusEl_textContent (page s') = "Unexpected error while analyzing the image."
    /\ statusEl_className (page s') = "status error"
    /\ console (page s') = console (page fresh) ++ [failed_to_fetch]
    /\ resultSection_hidden (page s') = true.
Proof.
  apply (C5_thrown_error_reported fresh photo [] (NoResponse failed_to_fetch)
           failed_to_fetch).
  left. reflexivity.
Defined.

Lemma C6_witness :
  exists s',
    step (number := string) (Submit [photo]) fresh = Some s'
    /\ requests (page s')
       = requests (page fresh)
         ++ [{| req_url := "/analyze"; req_method := "POST";
                req_body := [("image", photo)] |}].
Proof.
  eexists. split; [reflexivity |].
  apply (proj2 (C6_one_post_with_image_field (number := string))
           (Submit [photo]) fresh _ eq_refl).
Defined.

Lemma C8_witness :
  ok success = true
  /\ exists s1 s2,
      submit_and_settle [photo] (Responded success (Fulfilled region_body))
        after_no_file = Some s1
      /\ submit_and_settle [photo] (Responded success (Fulfilled region_body)) s1
         = Some s2
      /\ visible_state (page s2) = visible_state (page s1)
      /\ visible_state (page s1)
         = ("Analysis complete.", "status", false, JSON_stringify region_body).
Proof.
  split; [reflexivity |].
  apply (C8_success_twice_same_view after_no_file photo [] success region_body).
  reflexivity.
Defined.

Lemma C9_witness :
  ok bad_request = false
  /\ ToBoolean (Some (JString (number := string) EmptyString)) = false
  /\ exists s',
      submit_and_settle [photo] (Responded bad_request (Fulfilled empty_error)) fresh
      = Some s'
      /\ statusEl_textContent (page s') = "The analysis failed."
      /\ statusEl_className (page s') = "status error".
Proof.
  split; [reflexivity |]. split; [reflexivity |].
  apply (C9_falsy_error_field_gives_fallback fresh photo [] bad_request
           [("error", JString EmptyString)] (JString EmptyString));
    reflexivity.
Defined.

Lemma C10_witness :
  exists s',
    step (number := string) (Submit []) fresh = Some s'
    /\ status_line (page s')
       = ("Please choose a PNG or JPEG file to analyze.", "status error").
Proof.
  eexists. split; [reflexivity |].
  apply (proj2 (C10_text_and_class_set_together (number := string))
           (Submit []) fresh _ eq_refl).
Defined.

(** * Beyond one submission: body shapes, the console, interleavings *)

Section Further.
Context {number : Type} `{JSNumber number}.
Implicit Types (s : System) (p : Page) (f : File) (rest : list File).
Implicit Types (response : Response) (payload : json number) (e : js_error).

(** The page a successful body leaves. *)
Lemma resume_json_ok id response payload s :
  ok response = true ->
  resume id (on_json_settled response (Fulfilled payload)) s
  = {| page :=
         {| statusEl_textContent := "Analysis complete.";
            statusEl_className := "status";
            resultSection_hidden := false;
            resultPre_textContent := JSON_stringify payload;
            console := console (page s);
            requests := requests (page s) |};
       pending := delete id (pending s);
       next_id := next_id s |}.
Proof.
  intros Hok. unfold resume. rewrite on_json_ok by exact Hok. reflexivity.
Qed.

Lemma step_json_ok id response payload s :
  pending s !! id = Some (AwaitingJson response) ->
  ok response = true ->
  step (JsonSettled id (Fulfilled payload)) s
  = Some {| page :=
              {| statusEl_textContent := "Analysis complete.";
                 statusEl_className := "status";
                 resultSection_hidden := false;
                 resultPre_textContent := JSON_stringify payload;
                 console := console (page s);
                 requests := requests (page s) |};
            pending := delete id (pending s);
            next_id := next_id s |}.
Proof.
  intros Hid Hok. rewrite (step_json _ response) by exact Hid.
  rewrite resume_json_ok by exact Hok. reflexivity.
Qed.

(** Every enabled step, spelled out on the page. *)
Lemma step_page (ev : Event (number := number)) s s' :
  step ev s = Some s' ->
  page s'
  = match ev with
    | Submit files => (on_submit (number := number) files (page s)).1
    | FetchSettled _ fetched => (on_fetch_settled (number := number) fetched (page s)).1
    | JsonSettled id parsed =>
        match pending s !! id with
        | Some (AwaitingJson response) => (on_json_settled response parsed (page s)).1
        | _ => page s
        end
    end.
Proof.
  destruct ev as [files | id fetched | id parsed]; cbn [step].
  - intros [= <-]. rewrite page_resume. reflexivity.
  - destruct (pending s !! id) as [[| response] |]; try discriminate.
    intros [= <-]. apply page_resume.
  - destruct (pending s !! id) as [[| response] |]; try discriminate.
    intros [= <-]. apply page_resume.
Qed.

Lemma step_requests (ev : Event (number := number)) s s' :
  step ev s = Some s' ->
  requests (page s') = requests (page s) ++ sent_by [ev].
Proof.
  intros Hstep. rewrite (step_page _ _ _ Hstep).
  destruct ev as [[| f rest] | id [response | e] | id parsed]; cbn;
    try (symmetry; apply app_nil_r); try reflexivity.
  destruct (pending s !! id) as [[| response] |];
    try (symmetry; apply app_nil_r).
  rewrite on_json_settled_requests. symmetry. apply app_nil_r.
Qed.

(** *** How a submission ends *)

(** X1: a submission whose promises are settled always ends, and ends
    in [Success] or [Error]; in [Success] exactly when a file was
    selected, the response has a status from 200 to 299 and its body
    parsed. *)
Theorem settled_submission_success_iff files reply s :
  exists s',
    submit_and_settle (number := number) files reply s = Some s'
    /\ (submission_state (page s') = Success \/ submission_state (page s') = Error)
    /\ (submission_state (page s') = Success
        <-> exists f rest response payload,
              files = f :: rest
              /\ reply = Responded response (Fulfilled payload)
              /\ ok response = true).
Proof.
  destruct files as [| f rest].
  - eexists. split; [rewrite submit_and_settle_no_file; apply step_submit_no_file |].
    cbn [page]. split; [right; reflexivity |].
    split; [discriminate |]. intros (f & rest & _ & _ & Hfiles & _). discriminate Hfiles.
  - destruct reply as [e | response parsed].
    + eexists. split; [apply submit_and_settle_no_response |].
      cbn [page]. split; [right; reflexivity |].
      split; [discriminate |].
      intros (_ & _ & response & payload & _ & Hreply & _). discriminate Hreply.
    + eexists. split; [apply submit_and_settle_responded |].
      rewrite page_resume, on_json_settled_cases.
      destruct parsed as [payload | e].
      * destruct (ok response) eqn:Hok.
        -- split; [left; reflexivity |]. split; [| reflexivity].
           intros _. exists f, rest, response, payload. auto.
        -- assert (Hno :
             ~ exists f' rest' response' payload',
                 f :: rest = f' :: rest'
                 /\ Responded response (Fulfilled payload)
                    = Responded response' (Fulfilled payload')
                 /\ ok response' = true).
           { intros (f' & rest' & response' & payload' & _ & Hreply & Hok').
             injection Hreply as <- _. rewrite Hok in Hok'. discriminate Hok'. }
           destruct (Get payload "error"); [destruct (DOMString_of _) |];
             (split; [right; reflexivity |]);
             (split; [discriminate | intros Hyes; destruct (Hno Hyes)]).
      * split; [right; reflexivity |]. split; [discriminate |].
        intros (_ & _ & response' & payload' & _ & Hreply & _). discriminate Hreply.
Qed.

(** *** The shape of a rejected body *)

(** X2: a response outside 200 to 299 whose body is the JSON value
    [null] does not reach the message of the rejection: reading
    [payload.error] throws, the [catch] clause logs that [TypeError]
    and shows "Unexpected error while analyzing the image.". *)
Theorem null_body_rejection_is_caught s f rest response :
  ok response = false ->
  exists s',
    submit_and_settle (number := number) (f :: rest)
      (Responded response (Fulfilled JNull)) s = Some s'
    /\ statusEl_textContent (page s') = "Unexpected error while analyzing the image."
    /\ statusEl_className (page s') = "status error"
    /\ console (page s') = console (page s) ++ [TypeError_property_of_null "error"]
    /\ resultSection_hidden (page s') = true.
Proof.
  intros Hok. eexists. split; [apply submit_and_settle_responded |].
  rewrite page_resume, on_json_not_ok_null by exact Hok.
  rewrite catch_clause_spec. cbn [page fst]. repeat split.
Qed.

(** X3: a response outside 200 to 299 whose body is a boolean, a
    number, a string or an array has no [error] property to show: the
    status is "The analysis failed.", whatever the body holds, and
    nothing is logged. *)
Theorem primitive_body_rejection_gives_fallback s f rest response payload :
  ok response = false ->
  match payload with
  | JBool _ | JNumber _ | JString _ | JArray _ => True
  | JNull | JObject _ => False
  end ->
  exists s',
    submit_and_settle (f :: rest) (Responded response (Fulfilled payload)) s = Some s'
    /\ statusEl_textContent (page s') = "The analysis failed."
    /\ statusEl_className (page s') = "status error"
    /\ console (page s') = console (page s)
    /\ resultSection_hidden (page s') = true.
Proof.
  intros Hok Hshape. eexists. split; [apply submit_and_settle_responded |].
  rewrite page_resume,
    (on_json_not_ok _ _ None "The analysis failed."); [| exact Hok | |].
  - cbn [page fst]. repeat split.
  - destruct payload; try contradiction; reflexivity.
  - reflexivity.
Qed.

(** X4: an [error] property that is an object or an array is truthy
    even when it is empty, and reaches the status through [ToString].
    When the conversion gives a string, that string is shown with the
    error class and nothing is logged: "[object Object]" for an object
    with no [toString] key of its own, the empty text for the empty
    array.  When it throws, as for an object with a [toString] key of
    its own, [setStatus] writes nothing and the [catch] clause logs
    the [TypeError] and shows "Unexpected error while analyzing the
    image.". *)
Theorem structured_error_field_is_stringified s f rest response properties v :
  ok response = false ->
  own_property "error" properties = Some v ->
  match v with
  | JObject _ | JArray _ => True
  | _ => False
  end ->
  exists s',
    submit_and_settle (f :: rest)
      (Responded response (Fulfilled (JObject properties))) s = Some s'
    /\ statusEl_className (page s') = "status error"
    /\ match ToString v with
       | Normal text =>
           statusEl_textContent (page s') = text
           /\ console (page s') = console (page s)
       | Throw e =>
           statusEl_textContent (page s')
           = "Unexpected error while analyzing the image."
           /\ console (page s') = console (page s) ++ [e]
       end
    /\ (forall members,
          v = JObject members ->
          match own_property "toString" members with
          | None => statusEl_textContent (page s') = "[object Object]"
          | Some _ =>
              statusEl_textContent (page s')
              = "Unexpected error while analyzing the image."
              /\ console (page s')
                 = console (page s) ++ [TypeError_no_primitive_value]
          end)
    /\ (v = JArray [] -> statusEl_textContent (page s') = EmptyString).
Proof.
  intros Hok Hprop Hshape.
  assert (Hget : Get (JObject properties) "error" = Normal (Some v))
    by (cbn [Get]; rewrite Hprop; reflexivity).
  assert (Htruthy : ToBoolean (Some v) = true)
    by (destruct v; try contradiction; reflexivity).
  pose proof (DOMString_of_truthy v (JString "The analysis failed.") Htruthy)
    as Hconv.
  eexists. split; [apply submit_and_settle_responded |].
  rewrite page_resume, on_json_settled_cases, Hok, Hget, Hconv.
  assert (Hcases :
    forall c,
      ToString v = c ->
      let p :=
        (match c with
         | Normal text =>
             ({| statusEl_textContent := text;
                 statusEl_className := "status error";
                 resultSection_hidden := true;
                 resultPre_textContent := resultPre_textContent (page s);
                 console := console (page s);
                 requests := requests (page s) ++ [analyze_request f] |},
              Normal (@None Task))
         | Throw e => catch_clause e (analyzing_page f (page s))
         end).1 in
      statusEl_className p = "status error"
      /\ match c with
         | Normal text =>
             statusEl_textContent p = text /\ console p = console (page s)
         | Throw e =>
             statusEl_textContent p = "Unexpected error while analyzing the image."
             /\ console p = console (page s) ++ [e]
         end).
  { intros [text | e] _; cbn; repeat split. }
  destruct (Hcases (ToString v) eq_refl) as [Hclass Htext].
  split; [exact Hclass |]. split; [exact Htext |]. split.
  - intros members ->. cbn [ToString] in Htext |- *.
    destruct (own_property "toString" members); [exact Htext | apply Htext].
  - intros ->. apply Htext.
Qed.

(** *** What a step can and cannot do *)

(** X5: the console receives an error exactly when the [catch] clause
    runs, and receives the value that was thrown: the reason of a
    rejected [fetch] or [json()], and, under a status outside 200 to
    299, the [TypeError] of reading [error] on a [null] body or of an
    [error] value that cannot be converted to a string.  No other step
    logs. *)
Theorem console_logs_exactly_the_caught_error (ev : Event (number := number)) s s' :
  step ev s = Some s' ->
  console (page s')
  = console (page s)
    ++ match ev with
       | Submit _ | FetchSettled _ (Fulfilled _) => []
       | FetchSettled _ (Rejected e) | JsonSettled _ (Rejected e) => [e]
       | JsonSettled id (Fulfilled payload) =>
           match pending s !! id with
           | Some (AwaitingJson response) =>
               if ok response then []
               else
                 match Get payload "error" with
                 | Throw e => [e]
                 | Normal error =>
                     match
                       DOMString_of (or_else error (JString "The analysis failed."))
                     with
                     | Throw e => [e]
                     | Normal _ => []
                     end
                 end
           | _ => []
           end
       end.
Proof.
  intros Hstep. rewrite (step_page _ _ _ Hstep).
  assert (Hnil : forall l : list js_error, l = l ++ [])
    by (intros l; symmetry; apply app_nil_r).
  destruct ev as [[| f rest] | id [response | e] | id parsed];
    try reflexivity; try (cbn; apply Hnil).
  cbn [step] in Hstep.
  destruct (pending s !! id) as [[| response] |]; try discriminate Hstep.
  rewrite on_json_settled_cases.
  destruct parsed as [payload | e]; [| reflexivity].
  destruct (ok response); [apply Hnil |].
  destruct (Get payload "error"); [| reflexivity].
  destruct (DOMString_of _); [apply Hnil | reflexivity].
Qed.

(** X6: only the success of a submission writes the result text or
    shows the result section.  Every other step leaves the text of
    [resultPre] as it was (an old result stays in the page after an
    error) and either hides the section or leaves it as it was. *)
Theorem result_touched_only_by_success (ev : Event (number := number)) s s' :
  step ev s = Some s' ->
  (exists id response payload,
      ev = JsonSettled id (Fulfilled payload)
      /\ pending s !! id = Some (AwaitingJson response)
      /\ ok response = true
      /\ resultPre_textContent (page s') = JSON_stringify payload
      /\ resultSection_hidden (page s') = false)
  \/ (resultPre_textContent (page s') = resultPre_textContent (page s)
      /\ (resultSection_hidden (page s') = true
          \/ resultSection_hidden (page s') = resultSection_hidden (page s))).
Proof.
  intros Hstep. pose proof (step_page _ _ _ Hstep) as Hpage.
  destruct ev as [[| f rest] | id [response | e] | id parsed];
    try (right; rewrite Hpage; split; [reflexivity | right; reflexivity]).
  - right. rewrite Hpage. split; [reflexivity | left; reflexivity].
  - cbn [step] in Hstep.
    destruct (pending s !! id) as [[| response] |] eqn:Hid; try discriminate Hstep.
    rewrite on_json_settled_cases in Hpage.
    destruct parsed as [payload | e].
    + destruct (ok response) eqn:Hok.
      * left. exists id, response, payload. rewrite Hpage.
        repeat split; assumption.
      * right. rewrite Hpage.
        destruct (Get payload "error"); [destruct (DOMString_of _) |];
          (split; [reflexivity | right; reflexivity]).
    + right. rewrite Hpage. split; [reflexivity | right; reflexivity].
Qed.

(** *** Whole runs *)

(** X7: whatever the events and their order, a run sends one request
    for each [submit] with a file selected (a second [submit] is not
    held back while a request is in flight) and none for anything
    else: the requests sent are those of the [submit] events, in
    order. *)
Theorem run_sends_one_request_per_submit (events : list (Event (number := number))) s s' :
  run events s = Some s' ->
  requests (page s') = requests (page s) ++ sent_by events.
Proof.
  revert s. induction events as [| ev events IH]; intros s Hrun.
  - injection Hrun as <-. symmetry. apply app_nil_r.
  - cbn [run] in Hrun. destruct (step ev s) as [s1 |] eqn:Hstep; [| discriminate Hrun].
    rewrite (IH _ Hrun), (step_requests _ _ _ Hstep), <- app_assoc.
    unfold sent_by. cbn [flat_map]. rewrite app_nil_r. reflexivity.
Qed.

Lemma step_coherent (ev : Event (number := number)) s s' :
  step ev s = Some s' ->
  coherent (page s) \/ (exists files, ev = Submit files) ->
  coherent (page s').
Proof.
  intros Hstep Hbefore. pose proof (step_page _ _ _ Hstep) as Hpage.
  destruct ev as [[| f rest] | id [response | e] | id parsed].
  - rewrite Hpage. left. reflexivity.
  - rewrite Hpage. right. split; [reflexivity | left; reflexivity].
  - rewrite Hpage. destruct Hbefore as [Hc | [files Hev]]; [exact Hc | discriminate Hev].
  - rewrite Hpage. left. reflexivity.
  - cbn [step] in Hstep.
    destruct (pending s !! id) as [[| response] |]; try discriminate Hstep.
    rewrite Hpage, on_json_settled_cases.
    destruct parsed as [payload | e]; [| left; reflexivity].
    destruct (ok response).
    + right. split; [reflexivity | right; reflexivity].
    + destruct (Get payload "error"); [destruct (DOMString_of _) |];
        left; reflexivity.
Qed.

Lemma run_preserves_coherent (events : list (Event (number := number))) s s' :
  run events s = Some s' -> coherent (page s) -> coherent (page s').
Proof.
  revert s. induction events as [| ev events IH]; intros s Hrun Hc.
  - injection Hrun as <-. exact Hc.
  - cbn [run] in Hrun. destruct (step ev s) as [s1 |] eqn:Hstep; [| discriminate Hrun].
    apply (IH _ Hrun). apply (step_coherent _ _ _ Hstep). left. exact Hc.
Qed.

(** X8: starting with nothing in flight, after any events at all, in
    any interleaving, the status line is coherent: the class is
    [status error], or it is [status] and the text is "Analyzing
    image..." or "Analysis complete.".  An error text is never left
    with the plain class, whatever the markup showed at first. *)
Theorem status_line_coherent_after_any_run
  (events : list (Event (number := number))) s s' :
  pending s = ∅ ->
  events <> [] ->
  run events s = Some s' ->
  coherent (page s').
Proof.
  intros Hempty Hne Hrun.
  destruct events as [| ev events]; [contradiction |].
  cbn [run] in Hrun. destruct (step ev s) as [s1 |] eqn:Hstep; [| discriminate Hrun].
  apply (run_preserves_coherent _ _ _ Hrun).
  apply (step_coherent _ _ _ Hstep). right.
  destruct ev as [files | id fetched | id parsed].
  - exists files. reflexivity.
  - cbn [step] in Hstep. rewrite Hempty, lookup_empty in Hstep. discriminate Hstep.
  - cbn [step] in Hstep. rewrite Hempty, lookup_empty in Hstep. discriminate Hstep.
Qed.

(** *** Two submissions in flight *)

(** X9: nothing keeps a second submission from starting while the
    first is in flight, and an error never hides the result.  When the
    first then succeeds and the second fails, the page ends with the
    error of the second in the status and the result of the first
    shown beside it. *)
Theorem overlapping_failure_leaves_result_shown
  s fA restA fB restB responseA payloadA e :
  ok responseA = true ->
  exists s',
    run [Submit (fA :: restA);
         Submit (fB :: restB);
         FetchSettled (next_id s) (Fulfilled responseA);
         JsonSettled (next_id s) (Fulfilled payloadA);
         FetchSettled (S (next_id s)) (Rejected e)] s = Some s'
    /\ submission_state (page s') = Error
    /\ statusEl_textContent (page s') = "Unexpected error while analyzing the image."
    /\ resultSection_hidden (page s') = false
    /\ resultPre_textContent (page s') = JSON_stringify payloadA.
Proof.
  intros Hok. eexists. split.
  - cbn [run].
    rewrite step_submit_file. cbn [page pending next_id].
    rewrite step_submit_file. cbn [page pending next_id].
    rewrite step_fetch_fulfilled by pending_lookup. cbn [page pending next_id].
    rewrite (step_json_ok _ responseA) by first [exact Hok | pending_lookup].
    cbn [page pending next_id].
    rewrite step_fetch_rejected by pending_lookup.
    reflexivity.
  - cbn [page]. rewrite catch_clause_spec. cbn [fst]. repeat split.
Qed.

(** X10: with two submissions in flight that both succeed, the result
    shown at the end is the one whose body was parsed last, not the one
    of the later submission: if the answer to the first submission is
    parsed after the answer to the second, the page shows the first. *)
Theorem last_parsed_body_wins
  s fA restA fB restB responseA responseB payloadA payloadB :
  ok responseA = true ->
  ok responseB = true ->
  exists s',
    run [Submit (fA :: restA);
         Submit (fB :: restB);
         FetchSettled (next_id s) (Fulfilled responseA);
         FetchSettled (S (next_id s)) (Fulfilled responseB);
         JsonSettled (S (next_id s)) (Fulfilled payloadB);
         JsonSettled (next_id s) (Fulfilled payloadA)] s = Some s'
    /\ visible_state (page s')
       = ("Analysis complete.", "status", false, JSON_stringify payloadA)
    /\ requests (page s')
       = requests (page s) ++ [analyze_request fA; analyze_request fB].
Proof.
  intros HokA HokB. eexists. split.
  - cbn [run].
    rewrite step_submit_file. cbn [page pending next_id].
    rewrite step_submit_file. cbn [page pending next_id].
    rewrite step_fetch_fulfilled by pending_lookup. cbn [page pending next_id].
    rewrite step_fetch_fulfilled by pending_lookup. cbn [page pending next_id].
    rewrite (step_json_ok _ responseB) by first [exact HokB | pending_lookup].
    cbn [page pending next_id].
    rewrite (step_json_ok _ responseA) by first [exact HokA | pending_lookup].
    reflexivity.
  - cbn [page]. split; [reflexivity |].
    cbn [requests analyzing_page]. rewrite <- app_assoc. reflexivity.
Qed.

(** X11: what a submission with a file leaves in the status line and
    in the visibility of the result depends on the reply alone, not on
    the page it started from; the text of [resultPre] is the only
    thing that can carry over, and only when the submission fails. *)
Theorem submission_outcome_independent_of_history f rest reply s1 s2 :
  exists s1' s2',
    submit_and_settle (number := number) (f :: rest) reply s1 = Some s1'
    /\ submit_and_settle (number := number) (f :: rest) reply s2 = Some s2'
    /\ status_line (page s1') = status_line (page s2')
    /\ resultSection_hidden (page s1') = resultSection_hidden (page s2')
    /\ (resultPre_textContent (page s1') = resultPre_textContent (page s2')
        \/ (resultPre_textContent (page s1') = resultPre_textContent (page s1)
            /\ resultPre_textContent (page s2') = resultPre_textContent (page s2)
            /\ submission_state (page s1') = Error)).
Proof.
  destruct reply as [e | response parsed]; eexists; eexists.
  - split; [apply submit_and_settle_no_response |].
    split; [apply submit_and_settle_no_response |].
    cbn [page]. rewrite !catch_clause_spec. cbn [fst].
    repeat split. right. repeat split.
  - split; [apply submit_and_settle_responded |].
    split; [apply submit_and_settle_responded |].
    rewrite !page_resume, !on_json_settled_cases.
    destruct parsed as [payload | e].
    + destruct (ok response).
      * repeat split. left. reflexivity.
      * destruct (Get payload "error"); [destruct (DOMString_of _) |];
          repeat split; right; repeat split.
    + repeat split. right. repeat split.
Qed.

End Further.

(** ** Concrete runs, continued *)

Example busy_afternoon_runs : run busy_afternoon fresh <> None.
Proof. discriminate. Qed.

Example structured_error_evaluated :
  option_map (fun s => (status_line (page s), console (page s)))
    (submit_and_settle [photo] (Responded bad_request (Fulfilled structured_error)) fresh)
  = Some (("[object Object]", "status error"), []).
Proof. reflexivity. Qed.

Example unprintable_error_evaluated :
  option_map (fun s => (status_line (page s), console (page s)))
    (submit_and_settle [photo] (Responded bad_request (Fulfilled unprintable_error)) fresh)
  = Some (("Unexpected error while analyzing the image.", "status error"),
          [TypeError_no_primitive_value]).
Proof. reflexivity. Qed.

Lemma null_body_rejection_is_caught_witness :
  ok bad_request = false
  /\ exists s',
      submit_and_settle (number := string) [photo]
        (Responded bad_request (Fulfilled JNull)) fresh = Some s'
      /\ statusEl_textContent (page s') = "Unexpected error while analyzing the image."
      /\ statusEl_className (page s') = "status error"
      /\ console (page s') = console (page fresh) ++ [TypeError_property_of_null "error"]
      /\ resultSection_hidden (page s') = true.
Proof.
  split; [reflexivity |].
  apply (null_body_rejection_is_caught (number := string) fresh photo [] bad_request).
  reflexivity.
Defined.

Lemma primitive_body_rejection_gives_fallback_witness :
  ok bad_request = false
  /\ exists s',
      submit_and_settle [photo]
        (Responded bad_request (Fulfilled (JArray [JString "unsupported format"])))
        fresh = Some s'
      /\ statusEl_textContent (page s') = "The analysis failed."
      /\ statusEl_className (page s') = "status error"
      /\ console (page s') = console (page fresh)
      /\ resultSection_hidden (page s') = true.
Proof.
  split; [reflexivity |].
  apply (primitive_body_rejection_gives_fallback fresh photo [] bad_request
           (JArray [JString "unsupported format"]) eq_refl I).
Defined.

Lemma structured_error_field_is_stringified_witness :
  ok bad_request = false
  /\ exists s',
      submit_and_settle [photo] (Responded bad_request (Fulfilled unprintable_error))
        fresh = Some s'
      /\ statusEl_className (page s') = "status error"
      /\ statusEl_textContent (page s') = "Unexpected error while analyzing the image."
      /\ console (page s') = [TypeError_no_primitive_value].
Proof.
  split; [reflexivity |].
  destruct (structured_error_field_is_stringified fresh photo [] bad_request
              [("error", JObject [("toString", JNumber "1")])]
              (JObject [("toString", JNumber "1")]) eq_refl eq_refl I)
    as (s' & Hrun & Hclass & Htext & _).
  exists s'. split; [exact Hrun |]. split; [exact Hclass |]. exact Htext.
Defined.

Lemma console_logs_exactly_the_caught_error_witness :
  exists s',
    step (number := string) (JsonSettled 0 (Fulfilled JNull)) awaiting_body = Some s'
    /\ console (page s') = [TypeError_property_of_null "error"].
Proof.
  eexists. split; [reflexivity |].
  apply (console_logs_exactly_the_caught_error (number := string)
           (JsonSettled 0 (Fulfilled JNull)) awaiting_body _ eq_refl).
Defined.

Lemma result_touched_only_by_success_witness :
  exists s',
    step (JsonSettled 0 (Fulfilled empty_error)) awaiting_body = Some s'
    /\ ((exists id response payload,
            JsonSettled 0 (Fulfilled empty_error) = JsonSettled id (Fulfilled payload)
            /\ pending awaiting_body !! id = Some (AwaitingJson response)
            /\ ok response = true
            /\ resultPre_textContent (page s') = JSON_stringify payload
            /\ resultSection_hidden (page s') = false)
        \/ (resultPre_textContent (page s') = resultPre_textContent (page awaiting_body)
            /\ (resultSection_hidden (page s') = true
                \/ resultSection_hidden (page s')
                   = resultSection_hidden (page awaiting_body)))).
Proof.
  eexists. split; [reflexivity |].
  apply (result_touched_only_by_success
           (JsonSettled 0 (Fulfilled empty_error)) awaiting_body _ eq_refl).
Defined.

Lemma run_sends_one_request_per_submit_witness :
  exists s',
    run busy_afternoon fresh = Some s'
    /\ requests (page s') = [analyze_request photo; analyze_request aerial].
Proof.
  eexists. split; [reflexivity |].
  apply (run_sends_one_request_per_submit busy_afternoon fresh _ eq_refl).
Defined.

Lemma status_line_coherent_after_any_run_witness :
  exists s',
    run rejected_after_no_file fresh = Some s' /\ coherent (page s').
Proof.
  eexists. split; [reflexivity |].
  apply (status_line_coherent_after_any_run rejected_after_no_file fresh _ eq_refl).
  - discriminate.
  - reflexivity.
Defined.

Lemma overlapping_failure_leaves_result_shown_witness :
  ok success = true
  /\ exists s',
      run [Submit [photo];
           Submit [aerial];
           FetchSettled (next_id fresh) (Fulfilled success);
           JsonSettled (next_id fresh) (Fulfilled region_body);
           FetchSettled (S (next_id fresh)) (Rejected failed_to_fetch)] fresh = Some s'
      /\ submission_state (page s') = Error
      /\ statusEl_textContent (page s') = "Unexpected error while analyzing the image."
      /\ resultSection_hidden (page s') = false
      /\ resultPre_textContent (page s') = JSON_stringify region_body.
Proof.
  split; [reflexivity |].
  apply (overlapping_failure_leaves_result_shown fresh photo [] aerial [] success
           region_body failed_to_fetch).
  reflexivity.
Defined.

Lemma last_parsed_body_wins_witness :
  ok success = true
  /\ exists s',
      run [Submit [photo];
           Submit [aerial];
           FetchSettled (next_id fresh) (Fulfilled success);
           FetchSettled (S (next_id fresh)) (Fulfilled success);
           JsonSettled (S (next_id fresh)) (Fulfilled desert_body);
           JsonSettled (next_id fresh) (Fulfilled region_body)] fresh = Some s'
      /\ visible_state (page s')
         = ("Analysis complete.", "status", false, JSON_stringify region_body)
      /\ requests (page s')
         = requests (page fresh) ++ [analyze_request photo; analyze_request aerial].
Proof.
  split; [reflexivity |].
  apply (last_parsed_body_wins fresh photo [] aerial [] success success
           region_body desert_body); reflexivity.
Defined.
